(** * Summary statistics over records: [process_data] and [DataProcessor]

    A shallow embedding of

      - [packages/dev/test-swarm/file3.py]            ([process_data])
      - [packages/dev/tests/fixtures/sample-code.py]  ([DataProcessor])

    Python objects live in a store (a finite map from locations to
    objects); lists and dictionaries are reached through references, so
    that aliasing and in-place mutation ([list.append]) are visible, and
    a function call is a store transformer that either returns a value or
    raises an exception.

    Numbers.  Python's [int] is [Z].  A [float] is an IEEE 754 binary64
    number, taken from the Standard Library's specification of floating
    point arithmetic ([SpecFloat], precision 53, maximal exponent 1024,
    rounding to nearest, ties to even), with its signed zeros, infinities
    and NaN.  [+] and [/] follow Python: int with int stays int under
    [+]; an int meeting a float is first converted to the nearest float,
    which raises [OverflowError] when that is out of range; [/] of two
    ints is the float nearest the exact quotient, with [OverflowError]
    when it is out of range and [ZeroDivisionError] for a zero divisor. *)

From stdpp Require Import base option list gmap strings numbers.
From Stdlib Require Import QArith SpecFloat.

Local Open Scope Z_scope.
Local Open Scope string_scope.
Local Open Scope list_scope.

(** ** Values and objects *)

Definition loc := positive.

(** A binary64 floating-point number. *)
Abbreviation float := spec_float.

Inductive number :=
  | Int (n : Z)
  | Float (f : float).

Inductive pyval :=
  | PyNone
  | PyNum (x : number)
  | PyStr (s : string)
  | PyRef (l : loc).

(** A record is a Python [dict] with string keys. *)
Abbreviation dict := (gmap string pyval).

Inductive obj :=
  | ODict (d : dict)
  | OList (xs : list pyval)
  | OInstance (attrs : dict).   (* an instance of [DataProcessor] *)

Abbreviation heap := (gmap loc obj).

Inductive exn :=
  | TypeError
  | AttributeError
  | ZeroDivisionError
  | OverflowError.

Inductive outcome (A : Type) :=
  | Return (a : A)
  | Raise (e : exn).
Arguments Return {A} a.
Arguments Raise {A} e.

Global Instance outcome_ret : MRet outcome := λ A a, Return a.
Global Instance outcome_bind : MBind outcome := λ A B f m,
  match m with
  | Return a => f a
  | Raise e => Raise e
  end.

(** ** Arithmetic *)

Definition float_add : float → float → float := SFadd 53 1024.
Definition float_div : float → float → float := SFdiv 53 1024.

(** The float nearest to [m * 2^e] (an infinity beyond the range). *)
Definition nearest_float (m e : Z) : float := binary_normalize 53 1024 m e false.

(** A result that is out of the range of floats is an [OverflowError]
    where Python computes it from ints. *)
Definition in_range (f : float) : outcome float :=
  match f with
  | S754_infinity _ => Raise OverflowError
  | _ => Return f
  end.

(** [float(n)] for an int [n]. *)
Definition int_to_float (n : Z) : outcome float := in_range (nearest_float n 0).

(** [a / b] for ints: the quotient correctly rounded, not the quotient of
    the rounded operands. *)
Definition int_true_divide (a b : Z) : outcome float :=
  if decide (b = 0) then Raise ZeroDivisionError
  else match a with
       | 0 => Return (S754_zero (b <? 0)%Z)
       | _ => in_range
                (float_div (S754_finite (a <? 0)%Z (Z.to_pos (Z.abs a)) 0)
                           (S754_finite (b <? 0)%Z (Z.to_pos (Z.abs b)) 0))
       end.

(** [x + y] on numbers. *)
Definition num_add (x y : number) : outcome number :=
  match x, y with
  | Int a, Int b => Return (Int (a + b))
  | Int a, Float g => f ← int_to_float a; Return (Float (float_add f g))
  | Float f, Int b => g ← int_to_float b; Return (Float (float_add f g))
  | Float f, Float g => Return (Float (float_add f g))
  end.

(** [acc + v] where the left operand is a number, as in every addition
    [sum] performs from its start value [0]: a right operand that is not
    a number ([None], a [str], a list, a dict, an instance) is a
    [TypeError]. *)
Definition py_add (acc : number) (v : pyval) : outcome number :=
  match v with
  | PyNum y => num_add acc y
  | _ => Raise TypeError
  end.

(** [x / n] for a number [x] and an int [n] (true division). *)
Definition py_truediv (x : number) (n : Z) : outcome number :=
  match x with
  | Int a => f ← int_true_divide a n; Return (Float f)
  | Float f =>
      g ← int_to_float n;
      match g with
      | S754_zero _ => Raise ZeroDivisionError
      | _ => Return (Float (float_div f g))
      end
  end.

(** [sum(vs)] for a list of values: [+] from left to right, from [0]
    (plain additions, as the interpreters up to 3.11 do; later ones
    compensate the rounding errors of float additions). *)
Fixpoint sum_from (acc : number) (vs : list pyval) : outcome number :=
  match vs with
  | [] => Return acc
  | v :: vs' =>
      match py_add acc v with
      | Return acc' => sum_from acc' vs'
      | Raise e => Raise e
      end
  end.

Definition py_sum (vs : list pyval) : outcome number := sum_from (Int 0) vs.

(** ** The store monad *)

Definition M (A : Type) : Type := heap → outcome A * heap.

Global Instance M_ret : MRet M := λ A a h, (Return a, h).
Global Instance M_bind : MBind M := λ A B f m h,
  match m h with
  | (Return a, h') => f a h'
  | (Raise e, h') => (Raise e, h')
  end.

Definition lift {A} (r : outcome A) : M A := λ h, (r, h).

Definition fresh_loc (h : heap) : loc := fresh (dom h).

(** Creating an object: a new location, never one in use. *)
Definition alloc (o : obj) : M pyval := λ h,
  let l := fresh_loc h in (Return (PyRef l), <[l := o]> h).

(** Building a dict from a dict display [{k1: v1, ...}]. *)
Definition new_dict (d : dict) : M pyval := alloc (ODict d).

(** [v.get(key, default)]: only a dict has the method. *)
Definition dict_get (v : pyval) (key : string) (dflt : pyval) : M pyval := λ h,
  match v with
  | PyRef l =>
      match h !! l with
      | Some (ODict d) => (Return (default dflt (d !! key)), h)
      | _ => (Raise AttributeError, h)
      end
  | _ => (Raise AttributeError, h)
  end.

(** The elements [for item in v] runs over, for a list [v].  Arguments
    that are not lists are outside the annotations ([List[Dict]]) and are
    all mapped to [TypeError]. *)
Definition py_iter (v : pyval) : M (list pyval) := λ h,
  match v with
  | PyRef l =>
      match h !! l with
      | Some (OList xs) => (Return xs, h)
      | _ => (Raise TypeError, h)
      end
  | _ => (Raise TypeError, h)
  end.

(** [len(v)] for a list [v]. *)
Definition py_len (v : pyval) : M Z :=
  xs ← py_iter v; mret (Z.of_nat (length xs)).

(** [v.append(x)]: in place. *)
Definition list_append (v : pyval) (x : pyval) : M pyval := λ h,
  match v with
  | PyRef l =>
      match h !! l with
      | Some (OList xs) => (Return PyNone, <[l := OList (xs ++ [x])]> h)
      | _ => (Raise AttributeError, h)
      end
  | _ => (Raise AttributeError, h)
  end.

(** [v.name] *)
Definition getattr (v : pyval) (name : string) : M pyval := λ h,
  match v with
  | PyRef l =>
      match h !! l with
      | Some (OInstance attrs) =>
          match attrs !! name with
          | Some a => (Return a, h)
          | None => (Raise AttributeError, h)
          end
      | _ => (Raise AttributeError, h)
      end
  | _ => (Raise AttributeError, h)
  end.

(** [v.name = a] *)
Definition setattr (v : pyval) (name : string) (a : pyval) : M pyval := λ h,
  match v with
  | PyRef l =>
      match h !! l with
      | Some (OInstance attrs) =>
          (Return PyNone, <[l := OInstance (<[name := a]> attrs)]> h)
      | _ => (Raise AttributeError, h)
      end
  | _ => (Raise AttributeError, h)
  end.

(** Truth value of [v], as tested by [if] and [not]. *)
Definition truthy (v : pyval) : M bool := λ h,
  match v with
  | PyNone => (Return false, h)
  | PyNum (Int n) => (Return (negb (n =? 0)%Z), h)
  | PyNum (Float (S754_zero _)) => (Return false, h)
  | PyNum (Float _) => (Return true, h)
  | PyStr s => (Return (negb (bool_decide (s = ""))), h)
  | PyRef l =>
      match h !! l with
      | Some (OList xs) => (Return (negb (bool_decide (xs = []))), h)
      | Some (ODict d) => (Return (negb (bool_decide (d = ∅))), h)
      | _ => (Return true, h)
      end
  end.

(** ** [file3.py]: [process_data]

    [sum(item.get('value', 0) for item in items)]: the generator yields
    one looked-up value at a time and [sum] adds it to its accumulator
    before asking for the next, so a lookup and an addition alternate. *)
Fixpoint sum_gen (f : pyval → M pyval) (acc : number) (its : list pyval)
    : M number :=
  match its with
  | [] => mret acc
  | item :: rest =>
      v ← f item;
      acc' ← lift (py_add acc v);
      sum_gen f acc' rest
  end.

Definition process_data (items : pyval) : M pyval :=
  its ← py_iter items;
  total ← sum_gen (λ item, dict_get item "value" (PyNum (Int 0))) (Int 0) its;
  count ← py_len items;
  average ← (if bool_decide (0 < count) then lift (py_truediv total count)
             else mret (Int 0));
  new_dict (<["total" := PyNum total]>
            (<["count" := PyNum (Int count)]>
            (<["average" := PyNum average]> ∅))).

(** ** [sample-code.py]: class [DataProcessor] *)

Module DataProcessor.

Definition __init__ (self : pyval) : M pyval :=
  data ← alloc (OList []);
  setattr self "data" data.

(** The call [DataProcessor()]: a new instance, then [__init__]. *)
Definition new : M pyval :=
  self ← alloc (OInstance ∅);
  _ ← __init__ self;
  mret self.

Definition add_item (self item : pyval) : M pyval :=
  data ← getattr self "data";
  list_append data item.

Definition get_summary (self : pyval) : M pyval :=
  data ← getattr self "data";
  nonempty ← truthy data;
  if negb nonempty then
    new_dict (<["count" := PyNum (Int 0)]>
              (<["total" := PyNum (Int 0)]>
              (<["average" := PyNum (Int 0)]> ∅)))
  else
    data ← getattr self "data";
    its ← py_iter data;
    values ← mapM (λ item, dict_get item "value" (PyNum (Int 0))) its;
    total ← lift (py_sum values);
    let count := Z.of_nat (length values) in
    average ← (if bool_decide (0 < count) then lift (py_truediv total count)
               else mret (Int 0));
    new_dict (<["count" := PyNum (Int count)]>
              (<["total" := PyNum total]>
              (<["average" := PyNum average]> ∅))).

End DataProcessor.

(** ** Vocabulary of the specification *)

(** The value a record contributes: the one under key [value], [0] when
    the key is absent. *)
Definition extract (r : dict) : pyval := default (PyNum (Int 0)) (r !! "value").

(** A record whose extracted value is a number. *)
Definition numeric (r : dict) : Prop := ∃ x, extract r = PyNum x.

(** A record whose extracted value is an int. *)
Definition int_valued (r : dict) : Prop := ∃ n, extract r = PyNum (Int n).

(** The extracted value of an int-valued record ([0] also where it is
    not an int, which [int_valued] excludes). *)
Definition int_of (r : dict) : Z :=
  match extract r with PyNum (Int n) => n | _ => 0 end.

(** The arithmetic sum of a sequence of integers. *)
Definition int_sum (ns : list Z) : Z := foldr Z.add 0 ns.

(** The rational number a finite float denotes. *)
Definition float_value (f : float) : option Q :=
  match f with
  | S754_zero _ => Some 0%Q
  | S754_finite s m e =>
      let n := if s then Z.neg m else Z.pos m in
      Some (if decide (0 ≤ e)%Z then inject_Z (n * 2 ^ e)
            else Qred (Qmake n (Z.to_pos (2 ^ (- e)))))
  | _ => None
  end.

Definition number_value (x : number) : option Q :=
  match x with
  | Int n => Some (inject_Z n)
  | Float f => float_value f
  end.

(** The rational number a record contributes. *)
Definition record_value (r : dict) : option Q :=
  match extract r with
  | PyNum x => number_value x
  | _ => None
  end.

(** The arithmetic sum of a sequence of rationals. *)
Definition arith_sum (qs : list Q) : Q := foldr Qplus 0%Q qs.

(** [total / count if count > 0 else 0]. *)
Definition average_of (total : number) (count : Z) : outcome number :=
  if bool_decide (0 < count) then py_truediv total count
  else Return (Int 0).

(** The summary mapping with its three keys. *)
Definition summary (count : Z) (total average : number) : dict :=
  {[ "count" := PyNum (Int count);
     "total" := PyNum total;
     "average" := PyNum average ]}.

(** [v] refers to a dict whose contents are [r]. *)
Definition is_record (h : heap) (v : pyval) (r : dict) : Prop :=
  ∃ l, v = PyRef l ∧ h !! l = Some (ODict r).

(** [v] refers to a list whose elements are [xs]. *)
Definition is_list (h : heap) (v : pyval) (xs : list pyval) : Prop :=
  ∃ l, v = PyRef l ∧ h !! l = Some (OList xs).

(** [items] is a list of records with contents [R], in this order.  The
    same dict may occur several times. *)
Definition holds (h : heap) (items : pyval) (R : list dict) : Prop :=
  ∃ xs, is_list h items xs ∧ Forall2 (is_record h) xs R.

(** [self] is an instance whose attribute [data] is [data]. *)
Definition has_data (h : heap) (self data : pyval) : Prop :=
  ∃ l attrs, self = PyRef l ∧ h !! l = Some (OInstance attrs) ∧
             attrs !! "data" = Some data.

(** What a caller sees of a call that returns an object: the object's
    contents in the store after the call, or the exception. *)
Definition observed (r : outcome pyval * heap) : outcome (option obj) :=
  match r.1 with
  | Return (PyRef l) => Return (r.2 !! l)
  | Return _ => Return None
  | Raise e => Raise e
  end.

(** The store after a call. *)
Definition store_after {A} (r : outcome A * heap) : heap := r.2.

(** *** Histories of a [DataProcessor]

    The states an instance [self] goes through in a program that
    constructs it, creates and updates records, passes records to
    [add_item] and calls [get_summary]; [added] lists the arguments of
    the [add_item] calls so far, oldest first. *)
Inductive reachable (self : pyval) : heap → list pyval → Prop :=
  | reach_new h0 h :
      DataProcessor.new h0 = (Return self, h) →
      reachable self h []
  | reach_add h added item r res h' :
      reachable self h added →
      is_record h item r →
      DataProcessor.add_item self item h = (res, h') →
      reachable self h' (added ++ [item])
  | reach_summary h added res h' :
      reachable self h added →
      DataProcessor.get_summary self h = (res, h') →
      reachable self h' added
  | reach_record_new h added r :
      reachable self h added →
      reachable self (<[fresh_loc h := ODict r]> h) added
  | reach_record_update h added l r r' :
      reachable self h added →
      h !! l = Some (ODict r) →
      reachable self (<[l := ODict r']> h) added.

(** The sequence an instance holds: the elements of the list its [data]
    attribute refers to. *)
Definition held (h : heap) (self : pyval) : option (list pyval) :=
  match self with
  | PyRef l =>
      match h !! l with
      | Some (OInstance attrs) =>
          match attrs !! "data" with
          | Some (PyRef d) =>
              match h !! d with
              | Some (OList xs) => Some xs
              | _ => None
              end
          | _ => None
          end
      | _ => None
      end
  | _ => None
  end.

(** The operations of the accumulating variant. *)
Inductive call :=
  | CallAdd (item : pyval)
  | CallSummary.

Definition do_call (self : pyval) (c : call) : M pyval :=
  match c with
  | CallAdd item => DataProcessor.add_item self item
  | CallSummary => DataProcessor.get_summary self
  end.

(** The store after a sequence of calls on [self], whatever they return. *)
Fixpoint run_calls (self : pyval) (cs : list call) (h : heap) : heap :=
  match cs with
  | [] => h
  | c :: cs' => run_calls self cs' (store_after (do_call self c h))
  end.

(** The arguments of the [add_item] calls of a sequence, in order. *)
Definition added_by (cs : list call) : list pyval :=
  omap (λ c, match c with CallAdd item => Some item | CallSummary => None end) cs.

(** The program
<<
    p = DataProcessor()
    p.add_item({'value': 3})
    p.add_item({'value': 4})
    p.get_summary()
>> *)
Definition add_3_add_4_summary : M pyval :=
  p ← DataProcessor.new;
  r3 ← new_dict {[ "value" := PyNum (Int 3) ]};
  _ ← DataProcessor.add_item p r3;
  r4 ← new_dict {[ "value" := PyNum (Int 4) ]};
  _ ← DataProcessor.add_item p r4;
  DataProcessor.get_summary p.

(** *** A sample store

    The list [[{'value': 10}, {'value': 20}, {}]] at location 1, its
    three records at 2, 3 and 4, and at 5 a list of the same records in
    another order. *)
Definition sample_records : list dict :=
  [ {[ "value" := PyNum (Int 10) ]}; {[ "value" := PyNum (Int 20) ]}; ∅ ].

Definition sample_heap : heap :=
  {[ 1%positive := OList [PyRef 2%positive; PyRef 3%positive; PyRef 4%positive];
     2%positive := ODict {[ "value" := PyNum (Int 10) ]};
     3%positive := ODict {[ "value" := PyNum (Int 20) ]};
     4%positive := ODict ∅;
     5%positive := OList [PyRef 4%positive; PyRef 3%positive; PyRef 2%positive];
     6%positive := OList [];
     7%positive := OInstance {[ "data" := PyRef 1%positive ]} ]}.

(** The store of a program that has constructed an instance in the empty
    store (instance at 1, its list at 2), then a record [{'value': 3}]
    (at 3), and has passed the record to [add_item]. *)
Definition store_new : heap := store_after (DataProcessor.new ∅).

Definition store_record : heap :=
  <[fresh_loc store_new := ODict {[ "value" := PyNum (Int 3) ]}]> store_new.

Definition store_added : heap :=
  store_after (DataProcessor.add_item (PyRef 1%positive) (PyRef 3%positive)
                                      store_record).

(** *** A store with floats

    The list [[{'value': 1e16}, {'value': 1.0}]] at location 1. *)
Definition float_records : list dict :=
  [ {[ "value" := PyNum (Float (nearest_float (10 ^ 16) 0)) ]};
    {[ "value" := PyNum (Float (nearest_float 1 0)) ]} ].

Definition float_heap : heap :=
  {[ 1%positive := OList [PyRef 2%positive; PyRef 3%positive];
     2%positive := ODict {[ "value" := PyNum (Float (nearest_float (10 ^ 16) 0)) ]};
     3%positive := ODict {[ "value" := PyNum (Float (nearest_float 1 0)) ]} ]}.

(** *** A store with an int beyond the range of floats

    The list [[{'value': 10**400}]] at location 1; the list
    [[{'value': 0.5}, {'value': 10**400}, {'value': 'a'}]] at 3; the list
    [[{'value': 1}, {'value': 1}, {'value': -1}]] at 6. *)
Definition big_heap : heap :=
  {[ 1%positive := OList [PyRef 2%positive];
     2%positive := ODict {[ "value" := PyNum (Int (10 ^ 400)) ]};
     3%positive := OList [PyRef 4%positive; PyRef 2%positive; PyRef 5%positive];
     4%positive := ODict {[ "value" := PyNum (Float (nearest_float 1 (-1))) ]};
     5%positive := ODict {[ "value" := PyStr "a" ]};
     6%positive := OList [PyRef 7%positive; PyRef 7%positive; PyRef 8%positive];
     7%positive := ODict {[ "value" := PyNum (Int 1) ]};
     8%positive := ODict {[ "value" := PyNum (Int (-1)) ]} ]}.

(** *** A store with ill-formed data

    At 1 a list whose first record has a [str] value and whose last
    element is not a dict, held by the instance at 4; at 5 a list of one
    numeric record, held by the instance at 6; at 7 a list of one record
    whose value is a [str], held by the instance at 8; at 9 a numeric
    record followed by an int; at 10 the list at 5 twice over; at 11 a
    record no list refers to; at 12 a numeric record followed by the
    record with a [str] value, held by the instance at 13. *)
Definition mixed_heap : heap :=
  {[ 1%positive := OList [PyRef 2%positive; PyRef 3%positive; PyNum (Int 5)];
     2%positive := ODict {[ "value" := PyStr "a" ]};
     3%positive := ODict {[ "value" := PyNum (Int 1) ]};
     4%positive := OInstance {[ "data" := PyRef 1%positive ]};
     5%positive := OList [PyRef 3%positive];
     6%positive := OInstance {[ "data" := PyRef 5%positive ]};
     7%positive := OList [PyRef 2%positive];
     8%positive := OInstance {[ "data" := PyRef 7%positive ]};
     9%positive := OList [PyRef 3%positive; PyNum (Int 5)];
     10%positive := OList [PyRef 3%positive; PyRef 3%positive];
     11%positive := ODict {[ "value" := PyNum (Int 2) ]};
     12%positive := OList [PyRef 3%positive; PyRef 2%positive];
     13%positive := OInstance {[ "data" := PyRef 12%positive ]} ]}.

(** * Properties *)

(** ** Running the monad *)

Lemma run_bind {A B} (m : M A) (f : A → M B) h :
  (m ≫= f) h =
  match m h with
  | (Return a, h') => f a h'
  | (Raise e, h') => (Raise e, h')
  end.
Proof. reflexivity. Qed.

Lemma run_ret {A} (a : A) h : (mret a : M A) h = (Return a, h).
Proof. reflexivity. Qed.

Lemma run_lift {A} (r : outcome A) h : lift r h = (r, h).
Proof. reflexivity. Qed.

Lemma fresh_loc_None (h : heap) : h !! fresh_loc h = None.
Proof. unfold fresh_loc. apply (not_elem_of_dom (D := gset loc)), is_fresh. Qed.

Lemma run_alloc o h :
  alloc o h = (Return (PyRef (fresh_loc h)), <[fresh_loc h := o]> h).
Proof. reflexivity. Qed.

Lemma run_iter_list h v xs : is_list h v xs → py_iter v h = (Return xs, h).
Proof. intros (l & -> & Hl). unfold py_iter. by rewrite Hl. Qed.

Lemma run_len_list h v xs :
  is_list h v xs → py_len v h = (Return (Z.of_nat (length xs)), h).
Proof. intros Hl. unfold py_len. by rewrite run_bind, (run_iter_list _ _ _ Hl). Qed.

Lemma run_get_record h v r key dflt :
  is_record h v r → dict_get v key dflt h = (Return (default dflt (r !! key)), h).
Proof. intros (l & -> & Hl). unfold dict_get. by rewrite Hl. Qed.

(** ** Arithmetic *)

(** The operations on the inputs that tell a faithful division and
    addition from an exact or a naive one. *)
Example one_third :
  int_true_divide 1 3 = Return (S754_finite false 6004799503160661 (-54)).
Proof. reflexivity. Qed.

Example correctly_rounded_quotient :
  int_true_divide (2 ^ 53 + 1) 2 = Return (nearest_float (2 ^ 52) 0).
Proof. vm_compute. reflexivity. Qed.

Example quotient_out_of_range :
  int_true_divide (10 ^ 400) 1 = Raise OverflowError.
Proof. vm_compute. reflexivity. Qed.

Example int_out_of_range :
  num_add (Float (nearest_float 1 (-1))) (Int (10 ^ 400)) = Raise OverflowError.
Proof. vm_compute. reflexivity. Qed.

Example tenth_plus_fifth :
  ∃ a b c, int_true_divide 1 10 = Return a ∧ int_true_divide 2 10 = Return b ∧
           int_true_divide 3 10 = Return c ∧ float_add a b ≠ c.
Proof. eexists _, _, _. repeat split; [reflexivity..|]. vm_compute. discriminate. Qed.

(** [sum] over ints never raises and gives the integer sum. *)
Lemma sum_from_ints acc (zs : list Z) :
  sum_from (Int acc) ((PyNum ∘ Int) <$> zs) = Return (Int (acc + int_sum zs)).
Proof.
  revert acc. induction zs as [|z zs IH]; intros acc; simpl.
  - f_equal. f_equal. unfold int_sum; simpl. lia.
  - rewrite IH. do 2 f_equal. unfold int_sum; simpl. lia.
Qed.

(** [sum] raises nothing but [TypeError] and [OverflowError]. *)
Lemma num_add_raises x y e : num_add x y = Raise e → e = OverflowError.
Proof.
  destruct x as [a|f], y as [b|g]; simpl; try done.
  - unfold int_to_float, in_range. by destruct (nearest_float a 0); intros [= <-].
  - unfold int_to_float, in_range. by destruct (nearest_float b 0); intros [= <-].
Qed.

Lemma sum_from_raises acc vs e :
  sum_from acc vs = Raise e → e = TypeError ∨ e = OverflowError.
Proof.
  revert acc. induction vs as [|v vs IH]; intros acc; simpl; [done|].
  destruct (py_add acc v) as [acc'|e'] eqn:Hadd; [apply IH|].
  intros [= <-]. destruct v as [|x| |]; simpl in Hadd;
    try (injection Hadd as <-; by left).
  right. eauto using num_add_raises.
Qed.

Lemma sum_from_app acc vs ws :
  sum_from acc (vs ++ ws) =
  match sum_from acc vs with
  | Return acc' => sum_from acc' ws
  | Raise e => Raise e
  end.
Proof.
  revert acc. induction vs as [|v vs IH]; intros acc; simpl; [done|].
  destruct (py_add acc v); [apply IH|done].
Qed.

Lemma run_average total count h :
  (if bool_decide (0 < count) then lift (py_truediv total count)
   else mret (Int 0)) h = (average_of total count, h).
Proof. unfold average_of. by case_bool_decide. Qed.

(** The two dict displays build the same mapping: a dict does not depend
    on the order in which its keys were written. *)
Lemma process_data_display count total average :
  <["total" := PyNum total]>
    (<["count" := PyNum (Int count)]> (<["average" := PyNum average]> ∅))
  = summary count total average.
Proof.
  unfold summary. rewrite insert_empty.
  by rewrite (insert_insert_ne _ "total" "count").
Qed.

Lemma get_summary_display count total average :
  <["count" := PyNum (Int count)]>
    (<["total" := PyNum total]> (<["average" := PyNum average]> ∅))
  = summary count total average.
Proof. unfold summary. by rewrite insert_empty. Qed.

Lemma summary_dom count total average :
  dom (summary count total average) = ({[ "count"; "total"; "average" ]} : gset string).
Proof. unfold summary. rewrite !dom_insert_L, dom_singleton_L. set_solver. Qed.

(** ** Reading records *)

Lemma sum_gen_records h xs R acc :
  Forall2 (is_record h) xs R →
  sum_gen (λ item, dict_get item "value" (PyNum (Int 0))) acc xs h
  = (sum_from acc (extract <$> R), h).
Proof.
  intros HR. revert acc. induction HR as [|x r xs R Hx _ IH]; intros acc; [done|].
  simpl. rewrite run_bind, (run_get_record _ _ _ _ _ Hx), run_bind, run_lift.
  fold (extract r). destruct (py_add acc (extract r)); [apply IH|done].
Qed.

Lemma mapM_records h xs R :
  Forall2 (is_record h) xs R →
  mapM (λ item, dict_get item "value" (PyNum (Int 0))) xs h
  = (Return (extract <$> R), h).
Proof.
  induction 1 as [|x r xs R Hx _ IH]; [done|].
  simpl. rewrite run_bind, (run_get_record _ _ _ _ _ Hx), run_bind, IH.
  reflexivity.
Qed.

Lemma extract_ints R :
  Forall int_valued R → extract <$> R = (PyNum ∘ Int) <$> (int_of <$> R).
Proof.
  induction 1 as [|r R [n Hn] _ IH]; [done|].
  rewrite !fmap_cons, IH. f_equal. unfold int_of. rewrite Hn. reflexivity.
Qed.

Lemma py_sum_ints R :
  Forall int_valued R →
  py_sum (extract <$> R) = Return (Int (int_sum (int_of <$> R))).
Proof.
  intros HR. unfold py_sum. by rewrite (extract_ints _ HR), sum_from_ints.
Qed.

(** ** What [process_data] computes

    On a list of records the call reads the list and the records, then
    either [sum] or the division raises, and the store is as before, or
    one new dict is created, the summary. *)
Lemma process_data_run h items R :
  holds h items R →
  process_data items h =
  match py_sum (extract <$> R) with
  | Return total =>
      let count := Z.of_nat (length R) in
      match average_of total count with
      | Return average => alloc (ODict (summary count total average)) h
      | Raise e => (Raise e, h)
      end
  | Raise e => (Raise e, h)
  end.
Proof.
  intros (xs & Hl & HR). unfold process_data.
  pose proof HR as Hlen. apply Forall2_length in Hlen.
  rewrite run_bind, (run_iter_list _ _ _ Hl), run_bind, (sum_gen_records _ _ _ _ HR).
  fold (py_sum (extract <$> R)). destruct (py_sum (extract <$> R)) as [total|e]; [|done].
  rewrite run_bind, (run_len_list _ _ _ Hl), run_bind, run_average, Hlen.
  cbv zeta. destruct (average_of total (Z.of_nat (length R))) as [average|e]; [|done].
  unfold new_dict. by rewrite process_data_display.
Qed.

(** A summary that is returned is made of the sum of the values, the
    length and their quotient. *)
Lemma process_data_returned h items R s :
  holds h items R →
  observed (process_data items h) = Return (Some (ODict s)) →
  ∃ total average,
    py_sum (extract <$> R) = Return total ∧
    average_of total (Z.of_nat (length R)) = Return average ∧
    s = summary (Z.of_nat (length R)) total average.
Proof.
  intros Hh. rewrite (process_data_run _ _ _ Hh).
  destruct (py_sum (extract <$> R)) as [total|e]; [|done]. cbv zeta.
  destruct (average_of total (Z.of_nat (length R))) as [average|e] eqn:Havg;
    [|done].
  unfold observed; simpl. rewrite lookup_insert_eq. intros [= <-].
  by exists total, average.
Qed.

(** ** What [get_summary] computes *)

Lemma run_getattr h self data :
  has_data h self data → getattr self "data" h = (Return data, h).
Proof. intros (l & attrs & -> & Hl & Ha). unfold getattr. by rewrite Hl, Ha. Qed.

Lemma run_truthy_list h v xs :
  is_list h v xs → truthy v h = (Return (negb (bool_decide (xs = []))), h).
Proof. intros (l & -> & Hl). unfold truthy. by rewrite Hl. Qed.

Lemma held_spec h self xs :
  held h self = Some xs ↔ ∃ data, has_data h self data ∧ is_list h data xs.
Proof.
  unfold held, has_data, is_list. split.
  - destruct self as [| | |l]; try done.
    destruct (h !! l) as [[|?|attrs]|] eqn:Hl; try done.
    destruct (attrs !! "data") as [[| | |d]|] eqn:Ha; try done.
    destruct (h !! d) as [[|ys|]|] eqn:Hd; try done.
    intros [= ->]. exists (PyRef d). split; [by exists l, attrs | by exists d].
  - intros (data & (l & attrs & -> & Hl & Ha) & (d & -> & Hd)).
    by rewrite Hl, Ha, Hd.
Qed.

(** [get_summary] is [process_data] applied to the list the instance
    holds: the same outcome and the same store. *)
Lemma get_summary_run h self data R :
  has_data h self data → holds h data R →
  DataProcessor.get_summary self h = process_data data h.
Proof.
  intros Hs Hh. rewrite (process_data_run _ _ _ Hh).
  destruct Hh as (xs & Hl & HR). unfold DataProcessor.get_summary.
  rewrite run_bind, (run_getattr _ _ _ Hs), run_bind, (run_truthy_list _ _ _ Hl).
  case_bool_decide as Hxs; simpl.
  - subst xs. apply Forall2_nil_inv_l in HR as ->.
    unfold new_dict. by rewrite get_summary_display.
  - rewrite run_bind, (run_getattr _ _ _ Hs), run_bind, (run_iter_list _ _ _ Hl).
    rewrite run_bind, (mapM_records _ _ _ HR), run_bind, run_lift.
    destruct (py_sum (extract <$> R)) as [total|e]; [|done].
    rewrite length_fmap, run_bind, run_average. cbv zeta.
    destruct (average_of total (Z.of_nat (length R))) as [average|e]; [|done].
    unfold new_dict. by rewrite get_summary_display.
Qed.

(** ** The fields of the summary *)

Lemma observed_alloc o h : observed (alloc o h) = Return (Some o).
Proof. unfold observed; simpl. by rewrite lookup_insert_eq. Qed.

Lemma summary_count c t a : summary c t a !! "count" = Some (PyNum (Int c)).
Proof. reflexivity. Qed.

Lemma summary_total c t a : summary c t a !! "total" = Some (PyNum t).
Proof. reflexivity. Qed.

Lemma summary_average c t a : summary c t a !! "average" = Some (PyNum a).
Proof. reflexivity. Qed.

Lemma int_valued_missing r : r !! "value" = None → int_valued r ∧ int_of r = 0.
Proof. intros Hr. unfold int_valued, int_of, extract. rewrite Hr. eauto. Qed.

Lemma py_truediv_float x n y : py_truediv x n = Return y → ∃ f, y = Float f.
Proof.
  destruct x as [a|f]; simpl.
  - destruct (int_true_divide a n); simpl; [|done]. intros [= <-]. eauto.
  - destruct (int_to_float n) as [g|]; simpl; [|done].
    destruct g; try done; intros [= <-]; eauto.
Qed.

(** Goals about a concrete store are settled by evaluation. *)
Ltac by_evaluation :=
  repeat first
    [ progress (vm_compute; reflexivity)
    | reflexivity
    | eexists
    | split
    | constructor ].




(** The list [[{'value': 10}, {'value': 20}, {}]]. *)
Example summary_of_sample :
  observed (process_data (PyRef 1%positive) sample_heap)
  = Return (Some (ODict {[ "count" := PyNum (Int 3);
                           "total" := PyNum (Int 30);
                           "average" := PyNum (Float (nearest_float 10 0)) ]})).
Proof. vm_compute. reflexivity. Qed.

(** A total whose quotient by the count is out of the range of floats:
    [OverflowError], and no summary. *)
Example no_summary_out_of_range :
  process_data (PyRef 1%positive) big_heap = (Raise OverflowError, big_heap).
Proof. vm_compute. reflexivity. Qed.

(** An int too large for the float it is added to stops [sum] before the
    [str] after it is reached. *)
Example overflow_before_type_error :
  process_data (PyRef 3%positive) big_heap = (Raise OverflowError, big_heap).
Proof. vm_compute. reflexivity. Qed.

(** The average of [1, 1, -1] is the float nearest to one third. *)
Example average_one_third :
  observed (process_data (PyRef 6%positive) big_heap)
  = Return (Some (ODict (summary 3 (Int 1)
                           (Float (S754_finite false 6004799503160661 (-54)))))).
Proof. vm_compute. reflexivity. Qed.

(** C2. The [count] of a summary [process_data] returns on a list of
    records is the length of the list. *)
Theorem count_is_length h items R s :
  holds h items R →
  observed (process_data items h) = Return (Some (ODict s)) →
  s !! "count" = Some (PyNum (Int (Z.of_nat (length R)))).
Proof.
  intros Hh (total & average & _ & _ & ->)%(process_data_returned _ _ R); [|done].
  apply summary_count.
Qed.

Lemma count_is_length_witness :
  summary 3 (Int 30) (Float (nearest_float 10 0)) !! "count"
  = Some (PyNum (Int 3)).
Proof.
  apply (count_is_length sample_heap (PyRef 1%positive) sample_records).
  - unfold holds, is_list, is_record. by_evaluation.
  - vm_compute. reflexivity.
Defined.



(** C4. On the empty list [process_data] returns the mapping
    [{count: 0, total: 0, average: 0}]: these three keys and no other. *)
Theorem summary_of_empty h items :
  is_list h items [] →
  observed (process_data items h)
  = Return (Some (ODict {[ "count" := PyNum (Int 0);
                           "total" := PyNum (Int 0);
                           "average" := PyNum (Int 0) ]})).
Proof.
  intros Hl. assert (holds h items []) as Hh by (exists []; split; [done|constructor]).
  rewrite (process_data_run _ _ _ Hh). simpl. by rewrite observed_alloc.
Qed.

Lemma summary_of_empty_witness :
  observed (process_data (PyRef 6%positive) sample_heap)
  = Return (Some (ODict {[ "count" := PyNum (Int 0);
                           "total" := PyNum (Int 0);
                           "average" := PyNum (Int 0) ]})).
Proof.
  apply (summary_of_empty sample_heap (PyRef 6%positive)).
  unfold is_list. by_evaluation.
Defined.

(** ** Stores only grow under reading and creating *)

Lemma alloc_subseteq (h : heap) o : h ⊆ <[fresh_loc h := o]> h.
Proof. apply insert_subseteq, fresh_loc_None. Qed.

Lemma is_record_weaken h h' v r : h ⊆ h' → is_record h v r → is_record h' v r.
Proof. intros Hsub (l & -> & Hl). exists l. eauto using lookup_weaken. Qed.

Lemma is_list_weaken h h' v xs : h ⊆ h' → is_list h v xs → is_list h' v xs.
Proof. intros Hsub (l & -> & Hl). exists l. eauto using lookup_weaken. Qed.

Lemma has_data_weaken h h' self data :
  h ⊆ h' → has_data h self data → has_data h' self data.
Proof.
  intros Hsub (l & attrs & -> & Hl & Ha). exists l, attrs.
  eauto using lookup_weaken.
Qed.

Lemma records_weaken h h' xs R :
  h ⊆ h' → Forall2 (is_record h) xs R → Forall2 (is_record h') xs R.
Proof. intros Hsub. apply Forall2_impl. eauto using is_record_weaken. Qed.

Lemma holds_weaken h h' items R : h ⊆ h' → holds h items R → holds h' items R.
Proof.
  intros Hsub (xs & Hl & HR). exists xs.
  eauto using is_list_weaken, records_weaken.
Qed.

(** ** Every run of [process_data] and [get_summary] *)

Lemma dict_get_cases h v key dflt :
  dict_get v key dflt h = (Raise AttributeError, h) ∨ ∃ r, is_record h v r.
Proof.
  unfold dict_get, is_record. destruct v as [| | |l]; auto.
  destruct (h !! l) as [[d| |]|] eqn:Hl; eauto.
Qed.

Lemma py_iter_cases h v :
  py_iter v h = (Raise TypeError, h) ∨ ∃ xs, is_list h v xs.
Proof.
  unfold py_iter, is_list. destruct v as [| | |l]; auto.
  destruct (h !! l) as [[|xs|]|] eqn:Hl; eauto.
Qed.

Lemma getattr_cases h v :
  getattr v "data" h = (Raise AttributeError, h) ∨ ∃ data, has_data h v data.
Proof.
  unfold getattr, has_data. destruct v as [| | |l]; auto.
  destruct (h !! l) as [[| |attrs]|] eqn:Hl; auto.
  destruct (attrs !! "data") as [a|] eqn:Ha; eauto 10.
Qed.

Lemma truthy_reads h v : ∃ b, truthy v h = (Return b, h).
Proof.
  unfold truthy. destruct v as [|[n|[]]|s|l]; eauto.
  destruct (h !! l) as [[| |]|]; eauto.
Qed.

Lemma sum_gen_cases h xs acc :
  (∃ e, sum_gen (λ item, dict_get item "value" (PyNum (Int 0))) acc xs h
        = (Raise e, h))
  ∨ ∃ R, Forall2 (is_record h) xs R.
Proof.
  revert acc. induction xs as [|x xs IH]; intros acc.
  { right. exists []. constructor. }
  destruct (dict_get_cases h x "value" (PyNum (Int 0))) as [Hx|[r Hx]].
  { left. exists AttributeError. simpl. by rewrite run_bind, Hx. }
  simpl. rewrite run_bind, (run_get_record _ _ _ _ _ Hx), run_bind, run_lift.
  destruct (py_add acc (default (PyNum (Int 0)) (r !! "value"))) as [acc'|e]; [|eauto].
  destruct (IH acc') as [?|[R HR]]; [by left|].
  right. exists (r :: R). by constructor.
Qed.

Lemma mapM_get_cases h xs :
  mapM (λ item, dict_get item "value" (PyNum (Int 0))) xs h
  = (Raise AttributeError, h)
  ∨ ∃ R, Forall2 (is_record h) xs R.
Proof.
  induction xs as [|x xs IH].
  { right. exists []. constructor. }
  destruct (dict_get_cases h x "value" (PyNum (Int 0))) as [Hx|[r Hx]].
  { left. simpl. by rewrite run_bind, Hx. }
  destruct IH as [Hxs|[R HR]].
  { left. simpl. by rewrite run_bind, (run_get_record _ _ _ _ _ Hx), run_bind, Hxs. }
  right. exists (r :: R). by constructor.
Qed.

(** A call of [process_data] either raises and leaves the store as it
    was, or its argument is a list of records and it creates one dict. *)
Lemma process_data_cases h items :
  (∃ e, process_data items h = (Raise e, h))
  ∨ ∃ R total average,
      holds h items R ∧ py_sum (extract <$> R) = Return total ∧
      average_of total (Z.of_nat (length R)) = Return average ∧
      process_data items h =
      alloc (ODict (summary (Z.of_nat (length R)) total average)) h.
Proof.
  destruct (py_iter_cases h items) as [Hi|[xs Hl]].
  { left. exists TypeError. unfold process_data. by rewrite run_bind, Hi. }
  destruct (sum_gen_cases h xs (Int 0)) as [[e He]|[R HR]].
  { left. exists e. unfold process_data.
    by rewrite run_bind, (run_iter_list _ _ _ Hl), run_bind, He. }
  assert (holds h items R) as Hh by (by exists xs).
  rewrite (process_data_run _ _ _ Hh).
  destruct (py_sum (extract <$> R)) as [total|e] eqn:Hsum; [|eauto].
  cbv zeta.
  destruct (average_of total (Z.of_nat (length R))) as [average|e] eqn:Havg;
    [|eauto].
  right. by exists R, total, average.
Qed.

Lemma get_summary_cases h self :
  (∃ e, DataProcessor.get_summary self h = (Raise e, h))
  ∨ ∃ s, DataProcessor.get_summary self h = alloc (ODict s) h.
Proof.
  unfold DataProcessor.get_summary.
  destruct (getattr_cases h self) as [Hg|[data Hs]].
  { left. eexists. by rewrite run_bind, Hg. }
  rewrite run_bind, (run_getattr _ _ _ Hs), run_bind.
  destruct (truthy_reads h data) as [b ->]. destruct b; simpl; [|by eauto].
  rewrite run_bind, (run_getattr _ _ _ Hs), run_bind.
  destruct (py_iter_cases h data) as [->|[xs Hl]]; [by eauto|].
  rewrite (run_iter_list _ _ _ Hl), run_bind.
  destruct (mapM_get_cases h xs) as [->|[R HR]]; [by eauto|].
  rewrite (mapM_records _ _ _ HR), run_bind, run_lift.
  destruct (py_sum (extract <$> R)) as [total|e]; [|by eauto].
  rewrite run_bind, run_average.
  destruct (average_of total (Z.of_nat (length (extract <$> R))))
    as [average|e]; by eauto.
Qed.

Lemma held_alloc_dict h s self :
  held (<[fresh_loc h := ODict s]> h) self = held h self.
Proof.
  unfold held. destruct self as [| | |l]; try done.
  destruct (decide (l = fresh_loc h)) as [->|Hl].
  { by rewrite lookup_insert_eq, fresh_loc_None. }
  rewrite lookup_insert_ne by done.
  destruct (h !! l) as [[| |attrs]|]; try done.
  destruct (attrs !! "data") as [[| | |d]|]; try done.
  destruct (decide (d = fresh_loc h)) as [->|Hd].
  { by rewrite lookup_insert_eq, fresh_loc_None. }
  by rewrite lookup_insert_ne.
Qed.

Lemma process_data_subseteq h items : h ⊆ (process_data items h).2.
Proof.
  destruct (process_data_cases h items)
    as [[e ->]|(R & total & average & _ & _ & _ & ->)];
    [done | apply alloc_subseteq].
Qed.

Lemma get_summary_subseteq h self : h ⊆ (DataProcessor.get_summary self h).2.
Proof.
  destruct (get_summary_cases h self) as [[e ->]|[s ->]];
    [done | apply alloc_subseteq].
Qed.

Lemma held_get_summary h self :
  held (DataProcessor.get_summary self h).2 self = held h self.
Proof.
  destruct (get_summary_cases h self) as [[e ->]|[s ->]];
    [done | apply held_alloc_dict].
Qed.

(** C7. Two calls of [process_data] on the same argument, the second in
    the store the first one left, show the caller the same thing: the
    same exception, or summaries with the same contents. *)
Theorem process_data_deterministic h items :
  observed (process_data items (store_after (process_data items h)))
  = observed (process_data items h).
Proof.
  destruct (process_data_cases h items)
    as [[e He]|(R & total & average & Hh & Hsum & Havg & Hrun)].
  { rewrite He. unfold store_after; simpl. by rewrite He. }
  rewrite Hrun. unfold store_after; simpl.
  assert (holds (<[fresh_loc h :=
                    ODict (summary (Z.of_nat (length R)) total average)]> h)
                items R) as Hh'
    by eauto using holds_weaken, alloc_subseteq.
  rewrite (process_data_run _ _ _ Hh'), Hsum. cbv zeta. rewrite Havg.
  rewrite observed_alloc.
  fold (alloc (ODict (summary (Z.of_nat (length R)) total average)) h).
  by rewrite observed_alloc.
Qed.

(** C8. [process_data] and [get_summary] change no object of the store
    they are called in (the list, its records and every other object are
    after the call what they were before), and the sequence an instance
    holds is the same after [get_summary] as before. *)
Theorem summaries_have_no_side_effects h items self :
  h ⊆ store_after (process_data items h) ∧
  h ⊆ store_after (DataProcessor.get_summary self h) ∧
  held (store_after (DataProcessor.get_summary self h)) self = held h self.
Proof.
  unfold store_after.
  auto using process_data_subseteq, get_summary_subseteq, held_get_summary.
Qed.

(** ** [add_item] *)

Lemma add_item_run h self data xs item :
  has_data h self data → is_list h data xs →
  ∃ l, data = PyRef l ∧
       DataProcessor.add_item self item h
       = (Return PyNone, <[l := OList (xs ++ [item])]> h) ∧
       has_data (<[l := OList (xs ++ [item])]> h) self data ∧
       is_list (<[l := OList (xs ++ [item])]> h) data (xs ++ [item]).
Proof.
  intros Hs (l & -> & Hl). exists l. split; [done|].
  unfold DataProcessor.add_item. rewrite run_bind, (run_getattr _ _ _ Hs).
  unfold list_append. rewrite Hl. split; [done|]. split.
  - destruct Hs as (ls & attrs & -> & Hls & Ha). exists ls, attrs.
    rewrite lookup_insert_ne by congruence. done.
  - exists l. by rewrite lookup_insert_eq.
Qed.

Lemma held_add_item h self xs item :
  held h self = Some xs →
  ∃ h', DataProcessor.add_item self item h = (Return PyNone, h') ∧
        held h' self = Some (xs ++ [item]).
Proof.
  intros (data & Hs & Hl)%held_spec.
  destruct (add_item_run h self data xs item Hs Hl) as (l & -> & Hrun & Hs' & Hl').
  eexists. split; [done|]. apply held_spec. eauto.
Qed.

(** C9. [add_item(r)] returns [None] and leaves the instance holding
    the sequence it held with [r] appended; and after any sequence of
    calls of [add_item] and [get_summary] the instance holds what it held
    before, in the same order, followed by the added records in the order
    of the calls: nothing is removed or reordered. *)
Theorem held_sequence_append_only h self xs :
  held h self = Some xs →
  (∀ r, ∃ h', DataProcessor.add_item self r h = (Return PyNone, h') ∧
              held h' self = Some (xs ++ [r])) ∧
  (∀ cs, held (run_calls self cs h) self = Some (xs ++ added_by cs)).
Proof.
  intros Hheld. split; [eauto using held_add_item|].
  intros cs. revert h xs Hheld. induction cs as [|c cs IH]; intros h xs Hheld.
  { simpl. by rewrite app_nil_r. }
  destruct c as [item|]; simpl.
  - destruct (held_add_item h self xs item Hheld) as (h' & -> & Hheld').
    unfold store_after; simpl. rewrite (IH _ _ Hheld').
    by rewrite <- app_assoc.
  - apply IH. unfold store_after. by rewrite held_get_summary.
Qed.

Lemma held_sequence_append_only_witness :
  (∀ r, ∃ h', DataProcessor.add_item (PyRef 7%positive) r sample_heap
              = (Return PyNone, h') ∧
              held h' (PyRef 7%positive)
              = Some ([PyRef 2%positive; PyRef 3%positive; PyRef 4%positive] ++ [r])) ∧
  (∀ cs, held (run_calls (PyRef 7%positive) cs sample_heap) (PyRef 7%positive)
         = Some ([PyRef 2%positive; PyRef 3%positive; PyRef 4%positive]
                 ++ added_by cs)).
Proof.
  apply (held_sequence_append_only sample_heap (PyRef 7%positive)).
  vm_compute. reflexivity.
Defined.

(** ** Histories *)

Lemma new_run h0 :
  ∃ l d h, DataProcessor.new h0 = (Return (PyRef l), h) ∧
           has_data h (PyRef l) (PyRef d) ∧ is_list h (PyRef d) [] ∧ h0 ⊆ h.
Proof.
  set (l := fresh_loc h0). set (h1 := <[l := OInstance ∅]> h0).
  set (d := fresh_loc h1). set (h2 := <[d := OList []]> h1).
  assert (h1 !! l = Some (OInstance ∅)) as Hl by apply lookup_insert_eq.
  assert (l ≠ d) as Hld.
  { intros Heq. pose proof (fresh_loc_None h1) as Hd. fold d in Hd.
    rewrite <- Heq in Hd. congruence. }
  assert (h2 !! l = Some (OInstance ∅)) as Hl2.
  { unfold h2. by rewrite lookup_insert_ne. }
  exists l, d, (<[l := OInstance (<["data" := PyRef d]> ∅)]> h2).
  split; [|split; [|split]].
  - unfold DataProcessor.new, DataProcessor.__init__.
    rewrite run_bind, run_alloc, !run_bind, run_alloc.
    fold l h1 d h2. unfold setattr. by rewrite Hl2.
  - exists l, (<["data" := PyRef d]> ∅). by rewrite lookup_insert_eq.
  - exists d. split; [done|]. rewrite lookup_insert_ne by done.
    apply lookup_insert_eq.
  - apply map_subseteq_spec. intros i o Hi.
    assert (i ≠ l) as Hil.
    { intros ->. pose proof (fresh_loc_None h0) as Hf. fold l in Hf. congruence. }
    assert (h1 !! i = Some o) as Hi1 by (unfold h1; by rewrite lookup_insert_ne).
    assert (i ≠ d) as Hid.
    { intros ->. pose proof (fresh_loc_None h1) as Hf. fold d in Hf. congruence. }
    rewrite lookup_insert_ne by done. unfold h2. by rewrite lookup_insert_ne.
Qed.

(** Updating a list or a record leaves the records records. *)
Lemma is_record_insert_list h l xs ys v r :
  h !! l = Some (OList xs) → is_record h v r →
  is_record (<[l := OList ys]> h) v r.
Proof.
  intros Hl (lv & -> & Hv). exists lv. split; [done|].
  rewrite lookup_insert_ne by congruence. done.
Qed.

Lemma is_record_insert_dict h l r' v r :
  is_record h v r → ∃ r'', is_record (<[l := ODict r']> h) v r''.
Proof.
  intros (lv & -> & Hv). destruct (decide (l = lv)) as [->|Hne].
  - exists r', lv. by rewrite lookup_insert_eq.
  - exists r, lv. by rewrite lookup_insert_ne.
Qed.

Lemma Forall_exists_Forall2 {A B} (P : A → B → Prop) xs :
  Forall (λ x, ∃ y, P x y) xs → ∃ ys, Forall2 P xs ys.
Proof.
  induction 1 as [|x xs [y Hy] _ [ys Hys]].
  - exists []. constructor.
  - exists (y :: ys). by constructor.
Qed.

(** What holds in every state of a history: the instance has its list,
    the list holds the arguments of the [add_item] calls, in order, and
    each of them is a record. *)
Lemma reachable_inv self h added :
  reachable self h added →
  ∃ data, has_data h self data ∧ is_list h data added ∧
          Forall (λ x, ∃ r, is_record h x r) added.
Proof.
  induction 1 as [h0 h Hnew
                 |h added item r res h' _ (data & Hs & Hl & Hrec) Hitem Hadd
                 |h added res h' _ (data & Hs & Hl & Hrec) Hsum
                 |h added r _ (data & Hs & Hl & Hrec)
                 |h added l r r' _ (data & Hs & Hl & Hrec) Hupd].
  - destruct (new_run h0) as (l & d & h1 & Hrun & Hs & Hl & _).
    rewrite Hrun in Hnew. injection Hnew as <- <-. exists (PyRef d). auto.
  - destruct (add_item_run h self data added item Hs Hl)
      as (l & -> & Hrun & Hs' & Hl').
    rewrite Hrun in Hadd. injection Hadd as <- <-.
    exists (PyRef l). split; [done|]. split; [done|].
    destruct Hl as (? & [= <-] & Hl).
    apply Forall_app. split; [|apply Forall_singleton].
    + eapply Forall_impl; [|exact Hrec]. intros x [rx Hx].
      exists rx. eauto using is_record_insert_list.
    + exists r. eauto using is_record_insert_list.
  - pose proof (get_summary_subseteq h self) as Hsub. rewrite Hsum in Hsub.
    exists data. split; [eauto using has_data_weaken|].
    split; [eauto using is_list_weaken|].
    eapply Forall_impl; [|exact Hrec]. intros x [rx Hx].
    exists rx. eauto using is_record_weaken.
  - pose proof (alloc_subseteq h (ODict r)) as Hsub.
    exists data. split; [eauto using has_data_weaken|].
    split; [eauto using is_list_weaken|].
    eapply Forall_impl; [|exact Hrec]. intros x [rx Hx].
    exists rx. eauto using is_record_weaken.
  - exists data. split; [|split].
    + destruct Hs as (ls & attrs & -> & Hls & Ha). exists ls, attrs.
      rewrite lookup_insert_ne by congruence. done.
    + destruct Hl as (ld & -> & Hld). exists ld.
      rewrite lookup_insert_ne by congruence. done.
    + eapply Forall_impl; [|exact Hrec]. intros x [rx Hx].
      eauto using is_record_insert_dict.
Qed.

(** C5. In every state of a history of an instance, the instance holds
    exactly the records passed to [add_item] so far, in that order, and
    [get_summary] does what [process_data] does on the list it holds:
    the same summary or exception, and the same store afterwards. *)
Theorem get_summary_is_process_data self h added :
  reachable self h added →
  ∃ data R,
    has_data h self data ∧ held h self = Some added ∧
    Forall2 (is_record h) added R ∧
    DataProcessor.get_summary self h = process_data data h.
Proof.
  intros (data & Hs & Hl & Hrec)%reachable_inv.
  apply Forall_exists_Forall2 in Hrec as [R HR].
  exists data, R. split; [done|]. split; [apply held_spec; eauto|].
  split; [done|]. apply (get_summary_run _ _ _ R); [done|]. by exists added.
Qed.

Lemma get_summary_is_process_data_witness :
  ∃ data R,
    has_data store_added (PyRef 1%positive) data ∧
    held store_added (PyRef 1%positive) = Some ([] ++ [PyRef 3%positive]) ∧
    Forall2 (is_record store_added) ([] ++ [PyRef 3%positive]) R ∧
    DataProcessor.get_summary (PyRef 1%positive) store_added
    = process_data data store_added.
Proof.
  apply (get_summary_is_process_data (PyRef 1%positive) store_added
           ([] ++ [PyRef 3%positive])).
  apply (reach_add _ store_record [] (PyRef 3%positive)
           {[ "value" := PyNum (Int 3) ]} (Return PyNone)).
  - apply (reach_record_new _ store_new).
    apply (reach_new _ ∅). vm_compute. reflexivity.
  - exists 3%positive. split; vm_compute; reflexivity.
  - vm_compute. reflexivity.
Defined.

(** ** The two-record program *)

(** The float [3.5]. *)
Example three_and_a_half :
  float_value (nearest_float 7 (-1)) = Some (7 # 2)%Q ∧
  int_true_divide 7 2 = Return (nearest_float 7 (-1)).
Proof. split; vm_compute; reflexivity. Qed.

(** Creating a record, then passing it to [add_item]. *)
Lemma add_new_record h self d xs R r :
  has_data h self (PyRef d) → is_list h (PyRef d) xs →
  Forall2 (is_record h) xs R →
  ∃ item h',
    (∀ (k : M pyval),
       (item ← new_dict r; _ ← DataProcessor.add_item self item; k) h = k h') ∧
    has_data h' self (PyRef d) ∧ is_list h' (PyRef d) (xs ++ [item]) ∧
    Forall2 (is_record h') (xs ++ [item]) (R ++ [r]).
Proof.
  intros Hs Hl HR.
  pose proof (alloc_subseteq h (ODict r)) as Hsub.
  set (h1 := <[fresh_loc h := ODict r]> h) in *.
  assert (is_record h1 (PyRef (fresh_loc h)) r) as Hr.
  { exists (fresh_loc h). split; [done|]. apply lookup_insert_eq. }
  destruct (add_item_run h1 self (PyRef d) xs (PyRef (fresh_loc h)))
    as (l & [= <-] & Hrun & Hs' & Hl'); eauto using has_data_weaken, is_list_weaken.
  exists (PyRef (fresh_loc h)), (<[d := OList (xs ++ [PyRef (fresh_loc h)])]> h1).
  split; [|split; [done|split; [done|]]].
  - intros k. unfold new_dict. rewrite run_bind, run_alloc. fold h1.
    by rewrite run_bind, Hrun.
  - assert (h1 !! d = Some (OList xs)) as Hd.
    { destruct Hl as (? & [= <-] & Hd). eauto using lookup_weaken. }
    apply Forall2_app; [|constructor; [|constructor]].
    + eapply Forall2_impl; [|eapply records_weaken; [exact Hsub|exact HR]].
      eauto using is_record_insert_list.
    + eauto using is_record_insert_list.
Qed.

(** C6. From any store: construct an instance, add [{'value': 3}], add
    [{'value': 4}]; then [get_summary] returns the mapping
    [{count: 2, total: 7, average: 3.5}]. *)
Theorem three_then_four h :
  observed (add_3_add_4_summary h)
  = Return (Some (ODict {[ "count" := PyNum (Int 2);
                           "total" := PyNum (Int 7);
                           "average" := PyNum (Float (nearest_float 7 (-1))) ]})).
Proof.
  destruct (new_run h) as (l & d & h1 & Hnew & Hs1 & Hl1 & _).
  destruct (add_new_record h1 (PyRef l) d [] [] {[ "value" := PyNum (Int 3) ]})
    as (r3 & h2 & Hrun3 & Hs2 & Hl2 & HR2); [done|done|constructor|].
  destruct (add_new_record h2 (PyRef l) d _ _ {[ "value" := PyNum (Int 4) ]}
              Hs2 Hl2 HR2)
    as (r4 & h3 & Hrun4 & Hs3 & Hl3 & HR3).
  unfold add_3_add_4_summary. rewrite run_bind, Hnew, Hrun3, Hrun4.
  assert (holds h3 (PyRef d)
            [ {[ "value" := PyNum (Int 3) ]}; {[ "value" := PyNum (Int 4) ]} ])
    as Hh by (by eexists).
  rewrite (get_summary_run _ _ _ _ Hs3 Hh), (process_data_run _ _ _ Hh).
  change (py_sum _) with (Return (A:=number) (Int 7)). cbv beta iota zeta.
  change (average_of (Int 7) _)
    with (Return (A:=number) (Float (nearest_float 7 (-1)))).
  cbv beta iota. by rewrite observed_alloc.
Qed.

(** ** Order of the records *)

Lemma int_sum_perm zs zs' : zs ≡ₚ zs' → int_sum zs = int_sum zs'.
Proof.
  unfold int_sum.
  induction 1 as [|z zs zs' _ IH|y z zs|zs zs' zs'' _ IH1 _ IH2]; simpl; lia.
Qed.

(** C10. With exact arithmetic, which in Python is that of ints, the
    outcome does not depend on the order of the records: two lists whose
    records are int-valued and a permutation of one another get
    summaries with the same contents (or the same exception). *)
Theorem process_data_permutation h items items' R R' :
  holds h items R → holds h items' R' → R ≡ₚ R' → Forall int_valued R →
  observed (process_data items' h) = observed (process_data items h).
Proof.
  intros Hh Hh' Hperm HR.
  assert (Forall int_valued R') as HR' by (by rewrite <- Hperm).
  rewrite (process_data_run _ _ _ Hh), (process_data_run _ _ _ Hh').
  rewrite (py_sum_ints _ HR), (py_sum_ints _ HR').
  rewrite <- (Permutation_length Hperm).
  rewrite (int_sum_perm (int_of <$> R') (int_of <$> R)) by (by rewrite Hperm).
  cbv zeta.
  destruct (average_of (Int (int_sum (int_of <$> R))) (Z.of_nat (length R)));
    [|done].
  by rewrite !observed_alloc.
Qed.

Lemma process_data_permutation_witness :
  observed (process_data (PyRef 5%positive) sample_heap)
  = observed (process_data (PyRef 1%positive) sample_heap).
Proof.
  apply (process_data_permutation sample_heap (PyRef 1%positive)
           (PyRef 5%positive) sample_records (rev sample_records)).
  - unfold holds, is_list, is_record. by_evaluation.
  - unfold holds, is_list, is_record. by_evaluation.
  - apply Permutation_rev.
  - unfold int_valued. by_evaluation.
Defined.

(** * Further properties of the code *)

(** ** Exceptions *)

Lemma run_get_not_record h v key dflt :
  (∀ r, ¬ is_record h v r) → dict_get v key dflt h = (Raise AttributeError, h).
Proof.
  intros Hv. destruct (dict_get_cases h v key dflt) as [?|[r Hr]]; [done|].
  by destruct (Hv r).
Qed.

Lemma mapM_get_not_record h xs :
  Exists (λ x, ∀ r, ¬ is_record h x r) xs →
  mapM (λ item, dict_get item "value" (PyNum (Int 0))) xs h
  = (Raise AttributeError, h).
Proof.
  induction 1 as [x xs Hx|x xs _ IH]; simpl; rewrite run_bind.
  - by rewrite (run_get_not_record _ _ _ _ Hx).
  - destruct (dict_get_cases h x "value" (PyNum (Int 0))) as [->|[r Hr]]; [done|].
    by rewrite (run_get_record _ _ _ _ _ Hr), run_bind, IH.
Qed.

Lemma sum_gen_app f acc xs ys h :
  sum_gen f acc (xs ++ ys) h =
  match sum_gen f acc xs h with
  | (Return acc', h') => sum_gen f acc' ys h'
  | (Raise e, h') => (Raise e, h')
  end.
Proof.
  revert acc h. induction xs as [|x xs IH]; intros acc h; [done|].
  simpl. rewrite !run_bind. destruct (f x h) as [[v|e] h1]; [|done].
  rewrite !run_bind, !run_lift. destruct (py_add acc v); [apply IH|done].
Qed.

Lemma get_summary_not_record h self data xs :
  has_data h self data → is_list h data xs →
  Exists (λ x, ∀ r, ¬ is_record h x r) xs →
  DataProcessor.get_summary self h = (Raise AttributeError, h).
Proof.
  intros Hs Hl Hx. unfold DataProcessor.get_summary.
  rewrite run_bind, (run_getattr _ _ _ Hs), run_bind, (run_truthy_list _ _ _ Hl).
  case_bool_decide as Hxs; [subst xs; by apply Exists_nil in Hx|]. simpl.
  rewrite run_bind, (run_getattr _ _ _ Hs), run_bind, (run_iter_list _ _ _ Hl).
  by rewrite run_bind, (mapM_get_not_record _ _ Hx).
Qed.

Lemma py_add_not_number acc v : (∀ x, v ≠ PyNum x) → py_add acc v = Raise TypeError.
Proof. intros Hv. destruct v as [|x| |]; try done. by destruct (Hv x). Qed.

(** X1. A record whose [value] is present but is not a number (a [str],
    [None], a list) makes both [process_data] and [get_summary] raise
    [TypeError], when the additions of the values before it go through
    (as they do when those are ints); the default [0] stands in for a
    missing key only.  The store is left exactly as it was. *)
Theorem non_numeric_value_raises h self data pre r post acc :
  has_data h self data → holds h data (pre ++ r :: post) →
  py_sum (extract <$> pre) = Return acc → ¬ numeric r →
  process_data data h = (Raise TypeError, h) ∧
  DataProcessor.get_summary self h = (Raise TypeError, h).
Proof.
  intros Hs Hh Hsum Hr.
  assert (process_data data h = (Raise TypeError, h)) as Hp.
  { rewrite (process_data_run _ _ _ Hh). unfold py_sum in *.
    rewrite fmap_app, sum_from_app, Hsum, fmap_cons. simpl.
    rewrite py_add_not_number; [done|].
    intros x Hx. apply Hr. by exists x. }
  by rewrite (get_summary_run _ _ _ _ Hs Hh).
Qed.

Lemma non_numeric_value_raises_witness :
  process_data (PyRef 12%positive) mixed_heap = (Raise TypeError, mixed_heap) ∧
  DataProcessor.get_summary (PyRef 13%positive) mixed_heap
  = (Raise TypeError, mixed_heap).
Proof.
  apply (non_numeric_value_raises mixed_heap (PyRef 13%positive)
           (PyRef 12%positive)
           [ {[ "value" := PyNum (Int 1) ]} ] {[ "value" := PyStr "a" ]} []
           (Int 1)).
  - unfold has_data. by_evaluation.
  - unfold holds, is_list, is_record. by_evaluation.
  - vm_compute. reflexivity.
  - intros [x Hx]. vm_compute in Hx. discriminate.
Defined.

(** X2. [get_summary] raises [AttributeError] as soon as any element of
    the held list is not a dict, wherever it stands and whatever the
    other records contain: the values are all looked up before any is
    added.  The store is left as it was. *)
Theorem get_summary_raises_on_non_dict h self data xs :
  has_data h self data → is_list h data xs →
  Exists (λ x, ∀ r, ¬ is_record h x r) xs →
  DataProcessor.get_summary self h = (Raise AttributeError, h).
Proof. apply get_summary_not_record. Qed.

Lemma get_summary_raises_on_non_dict_witness :
  DataProcessor.get_summary (PyRef 4%positive) mixed_heap
  = (Raise AttributeError, mixed_heap).
Proof.
  apply (get_summary_raises_on_non_dict mixed_heap (PyRef 4%positive)
           (PyRef 1%positive)
           [PyRef 2%positive; PyRef 3%positive; PyNum (Int 5)]).
  - unfold has_data. by_evaluation.
  - unfold is_list. by_evaluation.
  - do 2 apply Exists_cons_tl. apply Exists_cons_hd.
    intros r (l & Hl & _). discriminate.
Defined.

(** X3. [process_data] stops at the first element it cannot handle.  When
    the additions of the values of the records before the first non-dict
    element go through, it raises [AttributeError]. *)
Theorem process_data_raises_on_first_non_dict h items pre x rest R acc :
  is_list h items (pre ++ x :: rest) →
  Forall2 (is_record h) pre R → py_sum (extract <$> R) = Return acc →
  (∀ r, ¬ is_record h x r) →
  process_data items h = (Raise AttributeError, h).
Proof.
  intros Hl HR Hsum Hx. unfold process_data, py_sum in *.
  rewrite run_bind, (run_iter_list _ _ _ Hl), run_bind, sum_gen_app.
  rewrite (sum_gen_records _ _ _ _ HR), Hsum.
  simpl. by rewrite run_bind, (run_get_not_record _ _ _ _ Hx).
Qed.

Lemma process_data_raises_on_first_non_dict_witness :
  process_data (PyRef 9%positive) mixed_heap = (Raise AttributeError, mixed_heap).
Proof.
  apply (process_data_raises_on_first_non_dict mixed_heap (PyRef 9%positive)
           [PyRef 3%positive] (PyNum (Int 5)) []
           [ {[ "value" := PyNum (Int 1) ]} ] (Int 1)).
  - unfold is_list. by_evaluation.
  - unfold is_record. by_evaluation.
  - vm_compute. reflexivity.
  - intros r (l & Hl & _). discriminate.
Defined.

(** X4. The two functions differ on a list in which a record whose value
    makes [sum] raise (a value that is not a number, or an int too large
    for the float it is added to) comes before an element that is not a
    dict: [process_data], which adds each value as soon as it is looked
    up, raises what [sum] raises, [TypeError] or [OverflowError];
    [get_summary], which looks all values up first, raises
    [AttributeError]. *)
Theorem exceptions_differ h self items pre rest R e :
  has_data h self items → is_list h items (pre ++ rest) →
  Forall2 (is_record h) pre R → py_sum (extract <$> R) = Raise e →
  Exists (λ x, ∀ r, ¬ is_record h x r) rest →
  process_data items h = (Raise e, h) ∧
  DataProcessor.get_summary self h = (Raise AttributeError, h) ∧
  (e = TypeError ∨ e = OverflowError).
Proof.
  intros Hs Hl HR Hsum Hx. split; [|split].
  - unfold process_data, py_sum in *.
    rewrite run_bind, (run_iter_list _ _ _ Hl), run_bind, sum_gen_app.
    by rewrite (sum_gen_records _ _ _ _ HR), Hsum.
  - apply (get_summary_not_record _ _ _ _ Hs Hl).
    apply Exists_app. by right.
  - eauto using sum_from_raises.
Qed.

Lemma exceptions_differ_witness :
  process_data (PyRef 1%positive) mixed_heap = (Raise TypeError, mixed_heap) ∧
  DataProcessor.get_summary (PyRef 4%positive) mixed_heap
  = (Raise AttributeError, mixed_heap) ∧
  (TypeError = TypeError ∨ TypeError = OverflowError).
Proof.
  apply (exceptions_differ mixed_heap (PyRef 4%positive) (PyRef 1%positive)
           [PyRef 2%positive] [PyRef 3%positive; PyNum (Int 5)]
           [ {[ "value" := PyStr "a" ]} ]).
  - unfold has_data. by_evaluation.
  - unfold is_list. by_evaluation.
  - unfold is_record. by_evaluation.
  - vm_compute. reflexivity.
  - apply Exists_cons_tl, Exists_cons_hd. intros r (l & Hl & _). discriminate.
Defined.

(** ** Objects created and objects changed *)

Lemma new_fresh h0 :
  ∃ l d, h0 !! l = None ∧ h0 !! d = None ∧ l ≠ d ∧
         DataProcessor.new h0
         = (Return (PyRef l),
            <[l := OInstance {[ "data" := PyRef d ]}]> (<[d := OList []]> h0)).
Proof.
  set (l := fresh_loc h0). set (h1 := <[l := OInstance ∅]> h0).
  set (d := fresh_loc h1).
  assert (h0 !! l = None) as Hl0 by apply fresh_loc_None.
  assert (h1 !! d = None) as Hd1 by apply fresh_loc_None.
  assert (l ≠ d) as Hld.
  { intros Heq. rewrite <- Heq in Hd1. unfold h1 in Hd1.
    by rewrite lookup_insert_eq in Hd1. }
  assert (h0 !! d = None) as Hd0.
  { unfold h1 in Hd1. by rewrite lookup_insert_ne in Hd1. }
  exists l, d. do 3 (split; [done|]).
  unfold DataProcessor.new, DataProcessor.__init__.
  rewrite run_bind, run_alloc, !run_bind, run_alloc. fold l h1 d.
  unfold setattr. rewrite lookup_insert_ne by done. unfold h1 at 1.
  rewrite lookup_insert_eq, run_ret. f_equal.
  unfold h1. rewrite (insert_insert_ne _ d l) by done.
  by rewrite insert_insert_eq, insert_empty.
Qed.

Lemma held_inv h self xs :
  held h self = Some xs →
  ∃ ls ld attrs, self = PyRef ls ∧ h !! ls = Some (OInstance attrs) ∧
                 attrs !! "data" = Some (PyRef ld) ∧ h !! ld = Some (OList xs).
Proof.
  intros (data & (ls & attrs & -> & Hls & Ha) & (ld & -> & Hld))%held_spec.
  by exists ls, ld, attrs.
Qed.

Lemma held_intro h ls ld attrs xs :
  h !! ls = Some (OInstance attrs) → attrs !! "data" = Some (PyRef ld) →
  h !! ld = Some (OList xs) → held h (PyRef ls) = Some xs.
Proof. intros Hls Ha Hld. unfold held. by rewrite Hls, Ha, Hld. Qed.

Lemma held_weaken h h' self xs :
  h ⊆ h' → held h self = Some xs → held h' self = Some xs.
Proof.
  intros Hsub (ls & ld & attrs & -> & Hls & Ha & Hld)%held_inv.
  eapply held_intro; eauto using lookup_weaken.
Qed.

Lemma has_data_functional h self a b :
  has_data h self a → has_data h self b → a = b.
Proof.
  intros (l & attrs & -> & Hl & Ha) (l' & attrs' & [= <-] & Hl' & Ha').
  congruence.
Qed.

Lemma add_item_cases h self item :
  (∃ e, DataProcessor.add_item self item h = (Raise e, h))
  ∨ ∃ d xs, has_data h self (PyRef d) ∧ h !! d = Some (OList xs) ∧
            DataProcessor.add_item self item h
            = (Return PyNone, <[d := OList (xs ++ [item])]> h).
Proof.
  unfold DataProcessor.add_item.
  destruct (getattr_cases h self) as [Hg|[data Hs]].
  { left. eexists. by rewrite run_bind, Hg. }
  rewrite run_bind, (run_getattr _ _ _ Hs). unfold list_append.
  destruct data as [| | |d]; eauto.
  destruct (h !! d) as [[|xs|]|] eqn:Hd; eauto 10.
Qed.

(** X5. A newly constructed instance summarises to
    [{count: 0, total: 0, average: 0}], in whatever store it is made. *)
Theorem new_instance_summary h :
  observed ((DataProcessor.new ≫= DataProcessor.get_summary) h)
  = Return (Some (ODict {[ "count" := PyNum (Int 0);
                           "total" := PyNum (Int 0);
                           "average" := PyNum (Int 0) ]})).
Proof.
  destruct (new_run h) as (l & d & h1 & Hnew & Hs & Hl & _).
  assert (holds h1 (PyRef d) []) as Hh by (exists []; split; [done|constructor]).
  rewrite run_bind, Hnew, (get_summary_run _ _ _ _ Hs Hh).
  rewrite (process_data_run _ _ _ Hh). simpl. by rewrite observed_alloc.
Qed.

(** X6. Every instance gets a list of its own: constructing a second
    instance leaves what the first one holds, the new one holds nothing,
    and adding to either of them does not change what the other holds. *)
Theorem instances_do_not_share h p xs :
  held h p = Some xs →
  ∃ q h1,
    DataProcessor.new h = (Return q, h1) ∧
    held h1 p = Some xs ∧ held h1 q = Some [] ∧
    ∀ item,
      held (store_after (DataProcessor.add_item q item h1)) p = Some xs ∧
      held (store_after (DataProcessor.add_item q item h1)) q = Some [item] ∧
      held (store_after (DataProcessor.add_item p item h1)) q = Some [] ∧
      held (store_after (DataProcessor.add_item p item h1)) p = Some (xs ++ [item]).
Proof.
  intros Hp. destruct (new_fresh h) as (l & d & Hl & Hd & Hld & Hnew).
  set (h1 := <[l := OInstance {[ "data" := PyRef d ]}]> (<[d := OList []]> h)) in *.
  assert (h ⊆ h1) as Hsub.
  { unfold h1. etrans; [apply (insert_subseteq _ d); exact Hd|].
    apply insert_subseteq. by rewrite lookup_insert_ne. }
  pose proof (held_weaken _ _ _ _ Hsub Hp) as Hp1.
  assert (h1 !! l = Some (OInstance {[ "data" := PyRef d ]})) as Hl1
    by apply lookup_insert_eq.
  assert (h1 !! d = Some (OList [])) as Hd1.
  { unfold h1. rewrite lookup_insert_ne by done. apply lookup_insert_eq. }
  assert (held h1 (PyRef l) = Some []) as Hq1 by (by eapply held_intro).
  exists (PyRef l), h1. do 3 (split; [done|]). intros item.
  destruct (held_inv _ _ _ Hp) as (lp & dp & attrs & -> & Hlp & Ha & Hdp).
  assert (lp ≠ d ∧ dp ≠ d ∧ dp ≠ l ∧ lp ≠ dp) as (? & ? & ? & ?)
    by (repeat split; congruence).
  assert (h1 !! lp = Some (OInstance attrs)) as Hlp1 by eauto using lookup_weaken.
  assert (h1 !! dp = Some (OList xs)) as Hdp1 by eauto using lookup_weaken.
  unfold store_after, DataProcessor.add_item, getattr, list_append.
  rewrite !run_bind, Hl1, Hlp1, Ha, lookup_singleton_eq, Hd1, Hdp1. simpl.
  repeat split.
  - eapply held_intro; [|exact Ha|]; by rewrite lookup_insert_ne.
  - eapply held_intro; [|apply lookup_singleton_eq|apply lookup_insert_eq].
    by rewrite lookup_insert_ne.
  - eapply held_intro; [|apply lookup_singleton_eq|]; by rewrite lookup_insert_ne.
  - eapply held_intro; [|exact Ha|apply lookup_insert_eq].
    by rewrite lookup_insert_ne.
Qed.

Lemma instances_do_not_share_witness :
  ∃ q h1,
    DataProcessor.new mixed_heap = (Return q, h1) ∧
    held h1 (PyRef 6%positive) = Some [PyRef 3%positive] ∧
    held h1 q = Some [] ∧
    ∀ item,
      held (store_after (DataProcessor.add_item q item h1)) (PyRef 6%positive)
      = Some [PyRef 3%positive] ∧
      held (store_after (DataProcessor.add_item q item h1)) q = Some [item] ∧
      held (store_after (DataProcessor.add_item (PyRef 6%positive) item h1)) q
      = Some [] ∧
      held (store_after (DataProcessor.add_item (PyRef 6%positive) item h1))
           (PyRef 6%positive)
      = Some ([PyRef 3%positive] ++ [item]).
Proof.
  apply (instances_do_not_share mixed_heap (PyRef 6%positive) [PyRef 3%positive]).
  vm_compute. reflexivity.
Defined.

(** X7. A call of [process_data] or [get_summary] that raises leaves the
    store exactly as it was; a call that returns has created exactly one
    object, the dict it returns, at a location that was not in use: the
    result is never one of the records nor an earlier summary. *)
Theorem summary_is_a_new_object h items self :
  ((∃ e, process_data items h = (Raise e, h))
   ∨ ∃ l s, h !! l = None ∧
            process_data items h = (Return (PyRef l), <[l := ODict s]> h))
  ∧
  ((∃ e, DataProcessor.get_summary self h = (Raise e, h))
   ∨ ∃ l s, h !! l = None ∧
            DataProcessor.get_summary self h
            = (Return (PyRef l), <[l := ODict s]> h)).
Proof.
  split.
  - destruct (process_data_cases h items)
      as [?|(R & total & average & _ & _ & _ & Hrun)]; [by left|right].
    rewrite Hrun, run_alloc. eauto using fresh_loc_None.
  - destruct (get_summary_cases h self) as [?|[s Hrun]]; [by left|right].
    rewrite Hrun, run_alloc. eauto using fresh_loc_None.
Qed.

Lemma do_call_frame h self d l o c :
  has_data h self (PyRef d) → l ≠ d → h !! l = Some o →
  has_data (do_call self c h).2 self (PyRef d) ∧ (do_call self c h).2 !! l = Some o.
Proof.
  intros Hs Hne Hl. destruct c as [item|]; simpl.
  - destruct (add_item_cases h self item)
      as [[e ->]|(d' & xs & Hs' & Hd' & ->)]; [done|]. simpl.
    pose proof (has_data_functional _ _ _ _ Hs Hs') as [= <-].
    split; [|by rewrite lookup_insert_ne].
    destruct Hs as (ls & attrs & -> & Hls & Ha). exists ls, attrs.
    rewrite lookup_insert_ne by congruence. done.
  - pose proof (get_summary_subseteq h self) as Hsub.
    eauto using has_data_weaken, lookup_weaken.
Qed.

(** X8. Calls of [add_item] and [get_summary] on an instance change no
    object but the list the instance holds: the records passed in, the
    summaries handed out, the instance itself and every other object are
    after any sequence of calls what they were before. *)
Theorem calls_change_only_the_held_list h self d l o cs :
  has_data h self (PyRef d) → l ≠ d → h !! l = Some o →
  run_calls self cs h !! l = Some o.
Proof.
  revert h. induction cs as [|c cs IH]; intros h Hs Hne Hl; [done|].
  simpl. unfold store_after.
  destruct (do_call_frame h self d l o c Hs Hne Hl) as [Hs' Hl']. by apply IH.
Qed.

Lemma calls_change_only_the_held_list_witness :
  run_calls (PyRef 6%positive) [CallAdd (PyRef 11%positive); CallSummary;
                                CallAdd PyNone; CallSummary] mixed_heap
    !! 3%positive
  = Some (ODict {[ "value" := PyNum (Int 1) ]}).
Proof.
  apply (calls_change_only_the_held_list mixed_heap (PyRef 6%positive)
           5%positive 3%positive).
  - unfold has_data. by_evaluation.
  - discriminate.
  - vm_compute. reflexivity.
Defined.

(** ** Sums of parts *)

Lemma int_sum_app zs zs' : int_sum (zs ++ zs') = int_sum zs + int_sum zs'.
Proof. unfold int_sum. induction zs as [|z zs IH]; simpl; lia. Qed.

Lemma int_sum_snoc (R : list dict) r :
  int_sum (int_of <$> (R ++ [r])) = int_sum (int_of <$> R) + int_of r.
Proof. rewrite fmap_app, int_sum_app. unfold int_sum; simpl. lia. Qed.

(** The count and total of a summary returned on int-valued records. *)
Lemma returned_on_ints h items R s :
  holds h items R → Forall int_valued R →
  observed (process_data items h) = Return (Some (ODict s)) →
  s !! "count" = Some (PyNum (Int (Z.of_nat (length R)))) ∧
  s !! "total" = Some (PyNum (Int (int_sum (int_of <$> R)))).
Proof.
  intros Hh HR (total & average & Hsum & _ & ->)%(process_data_returned _ _ R);
    [|done].
  rewrite (py_sum_ints _ HR) in Hsum. injection Hsum as <-.
  split; [apply summary_count | apply summary_total].
Qed.

(** X9. Adding one more int-valued record to an instance that holds
    int-valued records: between a summary returned before and one
    returned after, the count goes up by one and the total by the
    record's value (by [0] when the record has no [value]). *)
Theorem add_then_summary h self data xs R item r s s' :
  has_data h self data → is_list h data xs → Forall2 (is_record h) xs R →
  is_record h item r → Forall int_valued R → int_valued r →
  observed (DataProcessor.get_summary self h) = Return (Some (ODict s)) →
  observed ((DataProcessor.add_item self item ≫= λ _,
             DataProcessor.get_summary self) h) = Return (Some (ODict s')) →
  ∃ count total,
    s !! "count" = Some (PyNum (Int count)) ∧
    s !! "total" = Some (PyNum (Int total)) ∧
    s' !! "count" = Some (PyNum (Int (count + 1))) ∧
    s' !! "total" = Some (PyNum (Int (total + int_of r))).
Proof.
  intros Hs Hl HR Hr Hnum Hnumr Hbefore Hafter.
  assert (holds h data R) as Hh by (by exists xs).
  rewrite (get_summary_run _ _ _ _ Hs Hh) in Hbefore.
  destruct (returned_on_ints _ _ _ _ Hh Hnum Hbefore) as [Hc Ht].
  destruct (add_item_run h self data xs item Hs Hl) as (d & -> & Hrun & Hs' & Hl').
  rewrite run_bind, Hrun in Hafter.
  assert (h !! d = Some (OList xs)) as Hd by (by destruct Hl as (? & [= <-] & ?)).
  assert (holds (<[d := OList (xs ++ [item])]> h) (PyRef d) (R ++ [r])) as Hh'.
  { exists (xs ++ [item]). split; [done|].
    apply Forall2_app; [|constructor; [|constructor]].
    - eapply Forall2_impl; [|exact HR]. eauto using is_record_insert_list.
    - eauto using is_record_insert_list. }
  assert (Forall int_valued (R ++ [r])) as Hnum'.
  { apply Forall_app. split; [done|]. by constructor. }
  rewrite (get_summary_run _ _ _ _ Hs' Hh') in Hafter.
  destruct (returned_on_ints _ _ _ _ Hh' Hnum' Hafter) as [Hc' Ht'].
  rewrite int_sum_snoc in Ht'. rewrite length_app in Hc'. simpl in Hc'.
  exists (Z.of_nat (length R)), (int_sum (int_of <$> R)).
  do 2 (split; [done|]). split; [|done].
  by replace (Z.of_nat (length R) + 1) with (Z.of_nat (length R + 1)) by lia.
Qed.

Lemma add_then_summary_witness :
  ∃ count total,
    summary 1 (Int 1) (Float (nearest_float 1 0)) !! "count"
    = Some (PyNum (Int count)) ∧
    summary 1 (Int 1) (Float (nearest_float 1 0)) !! "total"
    = Some (PyNum (Int total)) ∧
    summary 2 (Int 3) (Float (nearest_float 3 (-1))) !! "count"
    = Some (PyNum (Int (count + 1))) ∧
    summary 2 (Int 3) (Float (nearest_float 3 (-1))) !! "total"
    = Some (PyNum (Int (total + int_of {[ "value" := PyNum (Int 2) ]}))).
Proof.
  apply (add_then_summary mixed_heap (PyRef 6%positive) (PyRef 5%positive)
           [PyRef 3%positive] [ {[ "value" := PyNum (Int 1) ]} ]
           (PyRef 11%positive) {[ "value" := PyNum (Int 2) ]}).
  - unfold has_data. by_evaluation.
  - unfold is_list. by_evaluation.
  - unfold is_record. by_evaluation.
  - unfold is_record. by_evaluation.
  - unfold int_valued. by_evaluation.
  - unfold int_valued. by_evaluation.
  - vm_compute. reflexivity.
  - vm_compute. reflexivity.
Defined.

(** X10. Totals and counts add up over concatenation: when a list holds
    the int-valued records of two other lists one after the other, and
    [process_data] returns a summary on each of the three, the count of
    the whole is the sum of the counts and its total the sum of the
    totals. *)
Theorem process_data_concatenation h a b c Ra Rb sa sb sc :
  holds h a Ra → holds h b Rb → holds h c (Ra ++ Rb) →
  Forall int_valued Ra → Forall int_valued Rb →
  observed (process_data a h) = Return (Some (ODict sa)) →
  observed (process_data b h) = Return (Some (ODict sb)) →
  observed (process_data c h) = Return (Some (ODict sc)) →
  ∃ ta tb na nb,
    sa !! "total" = Some (PyNum (Int ta)) ∧ sa !! "count" = Some (PyNum (Int na)) ∧
    sb !! "total" = Some (PyNum (Int tb)) ∧ sb !! "count" = Some (PyNum (Int nb)) ∧
    sc !! "total" = Some (PyNum (Int (ta + tb))) ∧
    sc !! "count" = Some (PyNum (Int (na + nb))).
Proof.
  intros Ha Hb Hc Hna Hnb Hsa Hsb Hsc.
  assert (Forall int_valued (Ra ++ Rb)) as Hnc by (apply Forall_app; done).
  destruct (returned_on_ints _ _ _ _ Ha Hna Hsa) as [Hca Hta].
  destruct (returned_on_ints _ _ _ _ Hb Hnb Hsb) as [Hcb Htb].
  destruct (returned_on_ints _ _ _ _ Hc Hnc Hsc) as [Hcc Htc].
  rewrite fmap_app, int_sum_app in Htc. rewrite length_app, Nat2Z.inj_add in Hcc.
  by eexists _, _, _, _.
Qed.

Lemma process_data_concatenation_witness :
  ∃ ta tb na nb,
    summary 1 (Int 1) (Float (nearest_float 1 0)) !! "total"
    = Some (PyNum (Int ta)) ∧
    summary 1 (Int 1) (Float (nearest_float 1 0)) !! "count"
    = Some (PyNum (Int na)) ∧
    summary 1 (Int 1) (Float (nearest_float 1 0)) !! "total"
    = Some (PyNum (Int tb)) ∧
    summary 1 (Int 1) (Float (nearest_float 1 0)) !! "count"
    = Some (PyNum (Int nb)) ∧
    summary 2 (Int 2) (Float (nearest_float 1 0)) !! "total"
    = Some (PyNum (Int (ta + tb))) ∧
    summary 2 (Int 2) (Float (nearest_float 1 0)) !! "count"
    = Some (PyNum (Int (na + nb))).
Proof.
  apply (process_data_concatenation mixed_heap (PyRef 5%positive) (PyRef 5%positive)
           (PyRef 10%positive)
           [ {[ "value" := PyNum (Int 1) ]} ] [ {[ "value" := PyNum (Int 1) ]} ]).
  - unfold holds, is_list, is_record. by_evaluation.
  - unfold holds, is_list, is_record. by_evaluation.
  - unfold holds, is_list, is_record. by_evaluation.
  - unfold int_valued. by_evaluation.
  - unfold int_valued. by_evaluation.
  - vm_compute. reflexivity.
  - vm_compute. reflexivity.
  - vm_compute. reflexivity.
Defined.

(** ** Records are held by reference *)

Lemma records_insert h h' xs R :
  Forall2 (is_record h) xs R →
  (∀ x rx, x ∈ xs → is_record h x rx → is_record h' x rx) →
  Forall2 (is_record h') xs R.
Proof.
  induction 1 as [|x rx xs R Hx _ IH]; intros Hkeep; constructor.
  - apply Hkeep; [apply elem_of_cons; by left|done].
  - apply IH. intros y ry Hy. apply Hkeep. apply elem_of_cons. by right.
Qed.

(** X11. [add_item] keeps a reference to the record, not a copy: when a
    record is updated after it was added, a summary [get_summary] then
    returns counts its new value, not the one it had when it was added. *)
Theorem record_update_is_seen h self data xs R l r r' s :
  has_data h self data → is_list h data xs → Forall2 (is_record h) xs R →
  h !! l = Some (ODict r) → PyRef l ∉ xs →
  Forall int_valued R → int_valued r' →
  let h1 := store_after (DataProcessor.add_item self (PyRef l) h) in
  observed (DataProcessor.get_summary self (<[l := ODict r']> h1))
  = Return (Some (ODict s)) →
  s !! "count" = Some (PyNum (Int (Z.of_nat (length R) + 1))) ∧
  s !! "total" = Some (PyNum (Int (int_sum (int_of <$> R) + int_of r'))).
Proof.
  intros Hs Hl HR Hr Hnotin Hnum Hnumr' h1.
  destruct (add_item_run h self data xs (PyRef l) Hs Hl) as (d & -> & Hrun & Hs' & Hl').
  unfold h1, store_after. rewrite Hrun. simpl.
  set (h2 := <[l := ODict r']> (<[d := OList (xs ++ [PyRef l])]> h)).
  assert (h !! d = Some (OList xs)) as Hd by (by destruct Hl as (? & [= <-] & ?)).
  assert (l ≠ d) as Hld by congruence.
  assert (has_data h2 self (PyRef d)) as Hs2.
  { destruct Hs as (ls & attrs & -> & Hls & Ha). exists ls, attrs.
    split; [done|]. split; [|done].
    unfold h2. rewrite !lookup_insert_ne by congruence. done. }
  assert (holds h2 (PyRef d) (R ++ [r'])) as Hh.
  { exists (xs ++ [PyRef l]). split.
    - exists d. split; [done|]. unfold h2.
      rewrite lookup_insert_ne by done. apply lookup_insert_eq.
    - apply Forall2_app; [|constructor; [|constructor]].
      + apply (records_insert h); [done|].
        intros x rx Hx (lx & -> & Hlx). exists lx. split; [done|].
        unfold h2. rewrite !lookup_insert_ne by congruence. done.
      + exists l. split; [done|]. apply lookup_insert_eq. }
  assert (Forall int_valued (R ++ [r'])) as Hnum'.
  { apply Forall_app. split; [done|]. by constructor. }
  rewrite (get_summary_run _ _ _ _ Hs2 Hh). intros Hret.
  destruct (returned_on_ints _ _ _ _ Hh Hnum' Hret) as [Hc Ht].
  rewrite int_sum_snoc in Ht. rewrite length_app in Hc. simpl in Hc.
  split; [|done].
  by replace (Z.of_nat (length R) + 1) with (Z.of_nat (length R + 1)) by lia.
Qed.

Lemma record_update_is_seen_witness :
  summary 2 (Int 8) (Float (nearest_float 4 0)) !! "count"
  = Some (PyNum (Int (Z.of_nat (length [ ({[ "value" := PyNum (Int 1) ]} : dict) ])
                      + 1))) ∧
  summary 2 (Int 8) (Float (nearest_float 4 0)) !! "total"
  = Some (PyNum (Int (int_sum (int_of <$> [ ({[ "value" := PyNum (Int 1) ]} : dict) ])
                      + int_of {[ "value" := PyNum (Int 7) ]}))).
Proof.
  apply (record_update_is_seen mixed_heap (PyRef 6%positive) (PyRef 5%positive)
           [PyRef 3%positive] [ {[ "value" := PyNum (Int 1) ]} ]
           11%positive {[ "value" := PyNum (Int 2) ]}
           {[ "value" := PyNum (Int 7) ]}).
  - unfold has_data. by_evaluation.
  - unfold is_list. by_evaluation.
  - unfold is_record. by_evaluation.
  - vm_compute. reflexivity.
  - intros Hin. apply list_elem_of_singleton in Hin. discriminate.
  - unfold int_valued. by_evaluation.
  - unfold int_valued. by_evaluation.
  - vm_compute. reflexivity.
Defined.

(** ** The constructor run again *)

(** X12. [__init__] binds [data] to a new empty list, at a location
    that was not in use, whatever the instance held: run on an instance
    that holds records, it leaves the instance holding nothing, while
    the list it held stays in the store with its elements. *)
Theorem init_resets h self xs :
  held h self = Some xs →
  ∃ d h',
    DataProcessor.__init__ self h = (Return PyNone, h') ∧
    h !! d = None ∧ has_data h' self (PyRef d) ∧ held h' self = Some [] ∧
    ∀ l, h !! l = Some (OList xs) → h' !! l = Some (OList xs).
Proof.
  intros (ls & ld & attrs & -> & Hls & Ha & Hld)%held_inv.
  set (d := fresh_loc h).
  assert (h !! d = None) as Hd by apply fresh_loc_None.
  assert (d ≠ ls) as Hne by congruence.
  exists d, (<[ls := OInstance (<["data" := PyRef d]> attrs)]> (<[d := OList []]> h)).
  split; [|split; [done|split; [|split]]].
  - unfold DataProcessor.__init__. rewrite run_bind, run_alloc. fold d.
    unfold setattr. rewrite lookup_insert_ne by done. by rewrite Hls.
  - exists ls, (<["data" := PyRef d]> attrs).
    by rewrite !lookup_insert_eq.
  - eapply held_intro; [apply lookup_insert_eq|apply lookup_insert_eq|].
    rewrite lookup_insert_ne by done. apply lookup_insert_eq.
  - intros l Hl. rewrite !lookup_insert_ne by congruence. done.
Qed.

Lemma init_resets_witness :
  ∃ d h',
    DataProcessor.__init__ (PyRef 6%positive) mixed_heap = (Return PyNone, h') ∧
    mixed_heap !! d = None ∧ has_data h' (PyRef 6%positive) (PyRef d) ∧
    held h' (PyRef 6%positive) = Some [] ∧
    ∀ l, mixed_heap !! l = Some (OList [PyRef 3%positive]) →
         h' !! l = Some (OList [PyRef 3%positive]).
Proof.
  apply (init_resets mixed_heap (PyRef 6%positive) [PyRef 3%positive]).
  vm_compute. reflexivity.
Defined.

(** ** No validation in [add_item] *)

Lemma held_after_calls h self xs cs :
  held h self = Some xs →
  held (run_calls self cs h) self = Some (xs ++ added_by cs).
Proof.
  revert h xs. induction cs as [|c cs IH]; intros h xs Hheld.
  { simpl. by rewrite app_nil_r. }
  destruct c as [item|]; simpl.
  - destruct (held_add_item h self xs item Hheld) as (h' & -> & Hheld').
    unfold store_after; simpl. rewrite (IH _ _ Hheld').
    by rewrite <- app_assoc.
  - apply IH. unfold store_after. by rewrite held_get_summary.
Qed.

(** X13. [add_item] accepts anything.  Once a value that is not a dict
    ([None], a number, a string) has been added, [get_summary] raises
    [AttributeError], and keeps raising it after any further calls of
    [add_item] and [get_summary], since nothing is ever taken out. *)
Theorem bad_item_breaks_summaries h self xs item cs :
  held h self = Some xs → (∀ l, item ≠ PyRef l) →
  let h' := run_calls self (CallAdd item :: cs) h in
  held h' self = Some (xs ++ item :: added_by cs) ∧
  DataProcessor.get_summary self h' = (Raise AttributeError, h').
Proof.
  intros Hheld Hitem h'.
  pose proof (held_after_calls h self xs (CallAdd item :: cs) Hheld) as Hh'.
  fold h' in Hh'. split; [done|].
  apply held_spec in Hh' as (data & Hs & Hl).
  apply (get_summary_not_record _ _ _ _ Hs Hl).
  apply Exists_app. right. apply Exists_cons_hd.
  intros r (l & -> & _). by destruct (Hitem l).
Qed.

Lemma bad_item_breaks_summaries_witness :
  let h' := run_calls (PyRef 6%positive)
              (CallAdd PyNone :: [CallAdd (PyRef 11%positive); CallSummary])
              mixed_heap in
  held h' (PyRef 6%positive)
  = Some ([PyRef 3%positive]
          ++ PyNone :: added_by [CallAdd (PyRef 11%positive); CallSummary]) ∧
  DataProcessor.get_summary (PyRef 6%positive) h' = (Raise AttributeError, h').
Proof.
  apply (bad_item_breaks_summaries mixed_heap (PyRef 6%positive)
           [PyRef 3%positive] PyNone
           [CallAdd (PyRef 11%positive); CallSummary]).
  - vm_compute. reflexivity.
  - discriminate.
Defined.
